(** * p5.PeakDetect: onset detection over a band-energy signal

    A shallow embedding of [src/peakDetect.js].  The detector object is a
    record with one field per JavaScript property; the methods [update] and
    [onPeak] become functions that take the object and return the mutated
    object.  [update] also returns the calls it made to the user callback, in
    order, so that statements about the observer can be written down.

    Modelling choices:
    - JavaScript numbers are exact rationals ([Q]); rounding and infinities
      of IEEE doubles are outside the model.  [NaN] appears only as an
      argument of the constructor, which never stores it.
    - The user callback is opaque code.  A call to it is recorded as an event
      carrying the arguments it received; it is assumed to return normally and
      not to write the detector's properties.
    - The FFT object is anything with a [getEnergy] method. *)

From Stdlib Require Import ZArith QArith Qminmax Qround Lqa Lia List Bool.
Import ListNotations.
Open Scope Q_scope.

(** ** Numbers and comparisons *)

(** [x > y] on numbers, as a boolean. *)
Definition Qgtb (x y : Q) : bool := negb (Qle_bool x y).

(** The frame counter is a number like every other; a count of frames is
    injected into it. *)
Definition frames_num (n : nat) : Q := inject_Z (Z.of_nat n).

(** ** Constructor arguments *)

(** A numeric argument of a call is either left out ([undefined]), or a
    number [x], or the number [NaN]. *)
Inductive argument : Type :=
| Omitted
| Given (x : Q)
| GivenNaN.

(** Truthiness of a number that is not [NaN]: every such number but zero. *)
Definition truthy (x : Q) : bool := negb (Qeq_bool x 0).

(** [a || dflt] for a numeric argument [a]: [undefined], [0] and [NaN] are
    falsy. *)
Definition or_default (a : argument) (dflt : Q) : Q :=
  match a with
  | Given x => if truthy x then x else dflt
  | Omitted => dflt
  | GivenNaN => dflt
  end.

(** ** The FFT object *)

(** The one capability of [p5.FFT] that the detector uses. *)
Record FFT : Type := mkFFT { getEnergy : Q -> Q -> Q }.

(** An analyser whose band energy is [255 * e] whatever the band, so that the
    detector reads the sample [e]. *)
Definition fft_with_energy (e : Q) : FFT := mkFFT (fun _ _ => e * 255).

Section Detector.

(** User callbacks and the values passed along with them. *)
Variables Cb Val : Type.

(** What a user callback does when called with [(energy, val)]: it changes
    the part [W] of the program's state that belongs to the user. *)
Variable W : Type.
Variable call : Cb -> Q -> Val -> W -> W.

(** What the [_onPeak] property holds: the empty function installed by the
    constructor, or the closure built by [onPeak], which remembers the
    user's callback and value. *)
Inductive observer : Type :=
| no_op
| forwarder (callback : Cb) (val : Val).

(** One call [callback(energy, val)] of a user callback. *)
Inductive call_event : Type :=
| Called (callback : Cb) (energy_arg : Q) (val : Val).

Record PeakDetect : Type := mkPeakDetect {
  framesPerPeak : Q;
  framesSinceLastPeak : Q;
  decayRate : Q;
  threshold : Q;
  cutoff : Q;
  energy : Q;
  penergy : Q;
  isDetected : bool;
  f1 : Q;
  f2 : Q;
  _onPeak : observer
}.

(** Property assignments [this.p = v]. *)
Definition set_framesSinceLastPeak (v : Q) (d : PeakDetect) : PeakDetect :=
  mkPeakDetect (framesPerPeak d) v (decayRate d) (threshold d) (cutoff d)
               (energy d) (penergy d) (isDetected d) (f1 d) (f2 d) (_onPeak d).

Definition set_cutoff (v : Q) (d : PeakDetect) : PeakDetect :=
  mkPeakDetect (framesPerPeak d) (framesSinceLastPeak d) (decayRate d)
               (threshold d) v (energy d) (penergy d) (isDetected d)
               (f1 d) (f2 d) (_onPeak d).

Definition set_energy (v : Q) (d : PeakDetect) : PeakDetect :=
  mkPeakDetect (framesPerPeak d) (framesSinceLastPeak d) (decayRate d)
               (threshold d) (cutoff d) v (penergy d) (isDetected d)
               (f1 d) (f2 d) (_onPeak d).

Definition set_penergy (v : Q) (d : PeakDetect) : PeakDetect :=
  mkPeakDetect (framesPerPeak d) (framesSinceLastPeak d) (decayRate d)
               (threshold d) (cutoff d) (energy d) v (isDetected d)
               (f1 d) (f2 d) (_onPeak d).

Definition set_isDetected (v : bool) (d : PeakDetect) : PeakDetect :=
  mkPeakDetect (framesPerPeak d) (framesSinceLastPeak d) (decayRate d)
               (threshold d) (cutoff d) (energy d) (penergy d) v
               (f1 d) (f2 d) (_onPeak d).

Definition set__onPeak (v : observer) (d : PeakDetect) : PeakDetect :=
  mkPeakDetect (framesPerPeak d) (framesSinceLastPeak d) (decayRate d)
               (threshold d) (cutoff d) (energy d) (penergy d) (isDetected d)
               (f1 d) (f2 d) v.

(** ** The constructor [p5.PeakDetect(freq1, freq2, threshold, _framesPerPeak)] *)
Definition new_PeakDetect (freq1 freq2 threshold_arg _framesPerPeak : argument)
  : PeakDetect :=
  {| framesPerPeak := or_default _framesPerPeak 5;
     framesSinceLastPeak := 0;
     decayRate := 0.95;
     threshold := or_default threshold_arg 0.25;
     cutoff := 0;
     energy := 0;
     penergy := 0;
     isDetected := false;
     f1 := or_default freq1 40;
     f2 := or_default freq2 20000;
     _onPeak := no_op |}.

(** ** [update] *)

(** The sample read from the analyser: [fftObject.getEnergy(f1, f2) / 255]. *)
Definition sample (d : PeakDetect) (fftObject : FFT) : Q :=
  getEnergy fftObject (f1 d) (f2 d) / 255.

(** The test of the [if]:
    [nrg > this.cutoff && nrg > this.threshold && nrg - this.penergy > 0]. *)
Definition peak_condition (d : PeakDetect) (nrg : Q) : bool :=
  Qgtb nrg (cutoff d) && Qgtb nrg (threshold d) && Qgtb (nrg - penergy d) 0.

(** [this._onPeak()]: the empty function calls nothing; the closure of
    [onPeak] calls [callback(self.energy, val)]. *)
Definition fire (d : PeakDetect) : list call_event :=
  match _onPeak d with
  | no_op => []
  | forwarder callback val => [Called callback (energy d) val]
  end.

Definition update (d : PeakDetect) (fftObject : FFT)
  : PeakDetect * list call_event :=
  let nrg := getEnergy fftObject (f1 d) (f2 d) / 255 in
  let d := set_energy nrg d in
  if peak_condition d nrg then
    let calls := fire d in
    let d := set_isDetected true d in
    let d := set_cutoff (nrg * 1.1) d in
    let d := set_framesSinceLastPeak 0 d in
    (set_penergy nrg d, calls)
  else
    let d := set_isDetected false d in
    let d :=
      if Qle_bool (framesSinceLastPeak d) (framesPerPeak d) then
        set_framesSinceLastPeak (framesSinceLastPeak d + 1) d
      else
        let d := set_cutoff (cutoff d * decayRate d) d in
        set_cutoff (Qmax (cutoff d) (threshold d)) d
    in
    (set_penergy nrg d, []).

(** ** [onPeak(callback, val)] *)
Definition onPeak (d : PeakDetect) (callback : Cb) (val : Val) : PeakDetect :=
  set__onPeak (forwarder callback val) d.

(** ** Running the draw loop *)

(** The detector after one [update] per analyser of [ffts], in order. *)
Fixpoint after (d : PeakDetect) (ffts : list FFT) : PeakDetect :=
  match ffts with
  | [] => d
  | fftObject :: rest => after (fst (update d fftObject)) rest
  end.

(** What each [update] of the loop returned: the detector after it and the
    callback calls it made. *)
Fixpoint frames (d : PeakDetect) (ffts : list FFT)
  : list (PeakDetect * list call_event) :=
  match ffts with
  | [] => []
  | fftObject :: rest =>
      let r := update d fftObject in r :: frames (fst r) rest
  end.

(** [isDetected] as the caller reads it after each [update]. *)
Definition detections (d : PeakDetect) (ffts : list FFT) : list bool :=
  map (fun r => isDetected (fst r)) (frames d ffts).

(** No [update] of the loop fires a peak. *)
Fixpoint quiet (d : PeakDetect) (ffts : list FFT) : bool :=
  match ffts with
  | [] => true
  | fftObject :: rest =>
      negb (isDetected (fst (update d fftObject)))
      && quiet (fst (update d fftObject)) rest
  end.

(** The detectors a program can hold: built by the constructor, then
    changed by the two methods only. *)
Inductive reachable : PeakDetect -> Prop :=
| reach_new (freq1 freq2 threshold_arg _framesPerPeak : argument) :
    reachable (new_PeakDetect freq1 freq2 threshold_arg _framesPerPeak)
| reach_update (d : PeakDetect) (fftObject : FFT) :
    reachable d -> reachable (fst (update d fftObject))
| reach_onPeak (d : PeakDetect) (callback : Cb) (val : Val) :
    reachable d -> reachable (onPeak d callback val).

(** The numeric and boolean properties of the detector, that is all of
    them but the [_onPeak] function. *)
Definition properties (d : PeakDetect)
  : Q * Q * Q * Q * Q * Q * Q * bool * Q * Q :=
  (framesPerPeak d, framesSinceLastPeak d, decayRate d, threshold d,
   cutoff d, energy d, penergy d, isDetected d, f1 d, f2 d).

(** The user's state after the calls of one [update] have run. *)
Definition perform (w : W) (calls : list call_event) : W :=
  fold_left (fun w c => match c with Called cb e v => call cb e v w end)
            calls w.

(** The draw loop with the user's state threaded through the callbacks. *)
Fixpoint drive (d : PeakDetect) (w : W) (ffts : list FFT) : PeakDetect * W :=
  match ffts with
  | [] => (d, w)
  | fftObject :: rest =>
      let r := update d fftObject in
      drive (fst r) (perform w (snd r)) rest
  end.

(** A timetable for the cutoff over a run of updates from [d]: it keeps its
    value on the first [hold] updates and on each later one it is
    multiplied by 0.95 and raised to the threshold if below it. *)
Definition cutoff_schedule (hold : nat) (d : PeakDetect) (ffts : list FFT)
  : Prop :=
  forall k : nat, (k < length ffts)%nat ->
    let before := after d (firstn k ffts) in
    let now := after d (firstn (S k) ffts) in
    ((k < hold)%nat -> cutoff now == cutoff before) /\
    ((hold <= k)%nat ->
     cutoff now == Qmax (cutoff before * 0.95) (threshold before)).

(** The detector and the signal of the worked example: threshold 0.25,
    two frames per peak, energies 0.1, 0.3, 0.5, 0.4, 0.6. *)
Definition example_detector : PeakDetect :=
  new_PeakDetect Omitted Omitted (Given 0.25) (Given 2).

Definition example_signal : list FFT :=
  map fft_with_energy [0.1; 0.3; 0.5; 0.4; 0.6].

(** The detector of the worked example some frames after a peak: a peak
    on the energy 0.3, then three frames at 0.1, which end the hold. *)
Definition example_past_hold : PeakDetect :=
  after example_detector (map fft_with_energy [0.3; 0.1; 0.1; 0.1]).

(** [k] frames of a low, flat signal. *)
Definition silence (k : nat) : list FFT := repeat (fft_with_energy 0.1) k.

(** The first updates of a new detector: the cutoff still has the value 0
    the constructor gave it, and each of the [n] updates so far only
    counted a frame. *)
Definition initial_hold (n : nat) (d : PeakDetect) : Prop :=
  cutoff d = 0 /\ framesSinceLastPeak d == frames_num n.

(** What holds of the cutoff after [n] updates of a new detector. *)
Definition floor_invariant (n : nat) (d : PeakDetect) : Prop :=
  decayRate d = 0.95 /\ 0 <= cutoff d /\
  (threshold d <= cutoff d \/ initial_hold n d).

(** [0.95] to the power [k]: what [k] decay steps multiply the cutoff by. *)
Fixpoint decay_factor (k : nat) : Q :=
  match k with
  | O => 1
  | S k' => decay_factor k' * 0.95
  end.

(** A number of decay steps that is enough to bring the cutoff of [d] down
    to its threshold. *)
Definition frames_to_floor (d : PeakDetect) : nat :=
  Z.to_nat (Qceiling (19 * cutoff d / threshold d)).

(** All the callback calls of a run of the draw loop, in order. *)
Definition calls_made (d : PeakDetect) (ffts : list FFT) : list call_event :=
  concat (map snd (frames d ffts)).

(** How many updates of a run of the draw loop fired a peak. *)
Definition peaks_fired (d : PeakDetect) (ffts : list FFT) : nat :=
  length (filter (fun b : bool => b) (detections d ffts)).

(** ** Facts about comparisons *)

Lemma Qgtb_true (x y : Q) : Qgtb x y = true <-> x > y.
Proof.
  unfold Qgtb. rewrite negb_true_iff, <- not_true_iff_false, Qle_bool_iff.
  split; [apply Qnot_le_lt | apply Qlt_not_le].
Qed.

Lemma Qle_bool_false (x y : Q) : Qle_bool x y = false <-> y < x.
Proof.
  rewrite <- not_true_iff_false, Qle_bool_iff.
  split; [apply Qnot_le_lt | apply Qlt_not_le].
Qed.

Lemma peak_condition_true (d : PeakDetect) (nrg : Q) :
  peak_condition d nrg = true <->
  nrg > cutoff d /\ nrg > threshold d /\ nrg > penergy d.
Proof.
  unfold peak_condition. rewrite !andb_true_iff, !Qgtb_true.
  split; intros H; repeat split; try tauto; lra.
Qed.

(** ** One [update] *)

(** The three ways through [update], with the assignments carried out. *)
Lemma update_unfold (d : PeakDetect) (fftObject : FFT) :
  update d fftObject =
  let nrg := sample d fftObject in
  if peak_condition d nrg then
    (mkPeakDetect (framesPerPeak d) 0 (decayRate d) (threshold d)
                  (nrg * 1.1) nrg nrg true (f1 d) (f2 d) (_onPeak d),
     fire (set_energy nrg d))
  else if Qle_bool (framesSinceLastPeak d) (framesPerPeak d) then
    (mkPeakDetect (framesPerPeak d) (framesSinceLastPeak d + 1)
                  (decayRate d) (threshold d) (cutoff d) nrg nrg false
                  (f1 d) (f2 d) (_onPeak d),
     [])
  else
    (mkPeakDetect (framesPerPeak d) (framesSinceLastPeak d) (decayRate d)
                  (threshold d)
                  (Qmax (cutoff d * decayRate d) (threshold d))
                  nrg nrg false (f1 d) (f2 d) (_onPeak d),
     []).
Proof.
  unfold update, sample.
  change (peak_condition (set_energy ?v d) ?n) with (peak_condition d n).
  cbv zeta.
  destruct (peak_condition d _); [reflexivity|].
  cbn [set_isDetected set_energy framesSinceLastPeak framesPerPeak].
  destruct (Qle_bool _ _); reflexivity.
Qed.

(** Case analysis on the path [update d fftObject] takes. *)
Ltac update_paths d fftObject :=
  rewrite ?(update_unfold d fftObject); cbv zeta;
  let P := fresh "Hpeak" in
  let H := fresh "Hhold" in
  destruct (peak_condition d (sample d fftObject)) eqn:P;
  [ | destruct (Qle_bool (framesSinceLastPeak d) (framesPerPeak d)) eqn:H ];
  cbn [fst snd framesPerPeak framesSinceLastPeak decayRate threshold cutoff
       energy penergy isDetected f1 f2 _onPeak].

(** [update] sets [isDetected] to the value of its test. *)
Lemma isDetected_update (d : PeakDetect) (fftObject : FFT) :
  isDetected (fst (update d fftObject))
  = peak_condition d (sample d fftObject).
Proof. update_paths d fftObject; reflexivity. Qed.

(** C1: after [update], [isDetected] is true exactly when the sample
    exceeds the cutoff, exceeds the threshold and strictly exceeds the
    previous sample, all three read in the state before the call. *)
Theorem isDetected_iff_three_conditions (d : PeakDetect) (fftObject : FFT) :
  let nrg := sample d fftObject in
  isDetected (fst (update d fftObject)) = true <->
  nrg > cutoff d /\ nrg > threshold d /\ nrg > penergy d.
Proof.
  intros nrg. rewrite isDetected_update. apply peak_condition_true.
Qed.

(** The assignments of the peak branch. *)
Lemma peak_sets_counter (d : PeakDetect) (fftObject : FFT) :
  isDetected (fst (update d fftObject)) = true ->
  framesSinceLastPeak (fst (update d fftObject)) = 0 /\
  cutoff (fst (update d fftObject)) = sample d fftObject * 1.1 /\
  penergy (fst (update d fftObject)) = sample d fftObject.
Proof.
  rewrite isDetected_update. intros Hfire.
  rewrite update_unfold. cbv zeta. rewrite Hfire. cbn. repeat split.
Qed.

(** C6: when [update] fires a peak on the sample [e], it leaves
    [cutoff = e * 1.1], [framesSinceLastPeak = 0] and [penergy = e], so
    that the cutoff is 1.1 times the stored previous energy. *)
Theorem peak_sets_cutoff_counter_penergy (d : PeakDetect) (fftObject : FFT) :
  isDetected (fst (update d fftObject)) = true ->
  let d' := fst (update d fftObject) in
  let e := sample d fftObject in
  cutoff d' = e * 1.1 /\ framesSinceLastPeak d' = 0 /\ penergy d' = e /\
  cutoff d' = penergy d' * 1.1.
Proof.
  rewrite isDetected_update. intros Hfire. cbv zeta.
  rewrite update_unfold. cbv zeta. rewrite Hfire. cbn. repeat split.
Qed.

(** C9: [update] writes [energy], [penergy], [cutoff],
    [framesSinceLastPeak] and [isDetected] only: the band bounds, the
    threshold, [framesPerPeak] and [decayRate] are those of the state before
    the call, and so is the registered observer. *)
Theorem update_keeps_configuration (d : PeakDetect) (fftObject : FFT) :
  let d' := fst (update d fftObject) in
  f1 d' = f1 d /\ f2 d' = f2 d /\ threshold d' = threshold d /\
  framesPerPeak d' = framesPerPeak d /\ decayRate d' = decayRate d /\
  _onPeak d' = _onPeak d.
Proof.
  cbv zeta. update_paths d fftObject; repeat split.
Qed.

(** ** The constructor *)

Lemma or_default_nonzero (x dflt : Q) : ~ x == 0 -> or_default (Given x) dflt = x.
Proof.
  intros Hx. unfold or_default, truthy.
  destruct (Qeq_bool x 0) eqn:E; [|reflexivity].
  apply Qeq_bool_iff in E. contradiction.
Qed.

Lemma or_default_zero (x dflt : Q) : x == 0 -> or_default (Given x) dflt = dflt.
Proof.
  intros Hx. unfold or_default, truthy.
  apply Qeq_bool_iff in Hx. rewrite Hx. reflexivity.
Qed.

(** C7, as the code has it: an argument that is a number other than zero
    and [NaN] is stored as it is; an argument that is left out, or is zero,
    or is [NaN], gets the default 40, 20000, 0.25 or 5. *)
Theorem constructor_keeps_nonzero_arguments
  (freq1 freq2 threshold_arg _framesPerPeak : argument) :
  let d := new_PeakDetect freq1 freq2 threshold_arg _framesPerPeak in
  (forall x, freq1 = Given x -> ~ x == 0 -> f1 d = x) /\
  (forall x, freq2 = Given x -> ~ x == 0 -> f2 d = x) /\
  (forall x, threshold_arg = Given x -> ~ x == 0 -> threshold d = x) /\
  (forall x, _framesPerPeak = Given x -> ~ x == 0 -> framesPerPeak d = x) /\
  (freq1 = Omitted \/ freq1 = GivenNaN \/
   (exists x, freq1 = Given x /\ x == 0) -> f1 d = 40) /\
  (freq2 = Omitted \/ freq2 = GivenNaN \/
   (exists x, freq2 = Given x /\ x == 0) -> f2 d = 20000) /\
  (threshold_arg = Omitted \/ threshold_arg = GivenNaN \/
   (exists x, threshold_arg = Given x /\ x == 0) -> threshold d = 0.25) /\
  (_framesPerPeak = Omitted \/ _framesPerPeak = GivenNaN \/
   (exists x, _framesPerPeak = Given x /\ x == 0) -> framesPerPeak d = 5).
Proof.
  cbv zeta. cbn [new_PeakDetect f1 f2 threshold framesPerPeak].
  repeat split; intros;
    repeat match goal with
      | H : _ \/ _ |- _ => destruct H
      | H : exists _, _ |- _ => destruct H as [? [? ?]]
      end; subst;
    auto using or_default_nonzero, or_default_zero.
Qed.

(** ** The worked example *)

(** C3, as the code runs it: on the energies 0.1, 0.3, 0.5, 0.4, 0.6 with
    threshold 0.25 and two frames per peak, peaks fire at indices 1, 2 and 4
    and at no other index; after index 2 the cutoff is 0.55. *)
Theorem example_peaks_at_1_2_4 :
  detections example_detector example_signal = [false; true; true; false; true]
  /\ cutoff (after example_detector (firstn 3 example_signal)) == 0.55.
Proof.
  split; [vm_compute; reflexivity|].
  apply Qeq_bool_iff. vm_compute. reflexivity.
Qed.

(** ** The cutoff and its floor *)

Lemma frames_num_S (n : nat) : frames_num (S n) == frames_num n + 1.
Proof.
  unfold frames_num. rewrite Nat2Z.inj_succ. unfold Z.succ.
  rewrite inject_Z_plus. reflexivity.
Qed.

Lemma floor_invariant_new (freq1 freq2 threshold_arg _framesPerPeak : argument) :
  floor_invariant 0 (new_PeakDetect freq1 freq2 threshold_arg _framesPerPeak).
Proof.
  unfold floor_invariant, initial_hold. cbn.
  repeat split; [discriminate | right; split; reflexivity].
Qed.

Lemma floor_invariant_update (n : nat) (d : PeakDetect) (fftObject : FFT) :
  floor_invariant n d -> floor_invariant (S n) (fst (update d fftObject)).
Proof.
  unfold floor_invariant, initial_hold.
  intros (Hrate & Hpos & Hfloor).
  update_paths d fftObject.
  - apply peak_condition_true in Hpeak. destruct Hpeak as (Hc & Ht & _).
    repeat split; [assumption | lra | left; lra].
  - repeat split; [assumption | assumption |].
    destruct Hfloor as [Hfloor | [Hzero Hcount]]; [left; assumption|].
    right. split; [assumption|]. rewrite frames_num_S, Hcount. reflexivity.
  - repeat split; [assumption | | left; apply Q.le_max_r].
    apply Qle_trans with (cutoff d * decayRate d); [|apply Q.le_max_l].
    rewrite Hrate. lra.
Qed.

Lemma floor_invariant_after (ffts : list FFT) :
  forall (n : nat) (d : PeakDetect),
    floor_invariant n d -> floor_invariant (n + length ffts) (after d ffts).
Proof.
  induction ffts as [|fftObject rest IH]; intros n d Hinv; cbn [after length].
  - rewrite Nat.add_0_r. assumption.
  - rewrite <- Nat.add_succ_comm. apply IH, floor_invariant_update, Hinv.
Qed.

(** C2, as the code has it: after any number of updates of a new detector,
    either [cutoff >= threshold], or the cutoff still has its initial value 0
    and every update so far was a non-peak update that only incremented
    [framesSinceLastPeak], which then equals the number of updates. *)
Theorem cutoff_floor_after_first_peak_or_decay
  (freq1 freq2 threshold_arg _framesPerPeak : argument) (ffts : list FFT) :
  let d := after (new_PeakDetect freq1 freq2 threshold_arg _framesPerPeak) ffts in
  threshold d <= cutoff d \/
  (cutoff d = 0 /\ framesSinceLastPeak d == frames_num (length ffts)).
Proof.
  cbv zeta.
  destruct (floor_invariant_after ffts 0 _
              (floor_invariant_new freq1 freq2 threshold_arg _framesPerPeak))
    as (_ & _ & H).
  exact H.
Qed.

(** ** The hold after a peak, and the decay *)

Lemma frames_num_le (a b : nat) : frames_num a <= frames_num b <-> (a <= b)%nat.
Proof.
  unfold frames_num. rewrite <- Zle_Qle. symmetry. apply Nat2Z.inj_le.
Qed.

Lemma frames_num_lt (a b : nat) : frames_num a < frames_num b <-> (a < b)%nat.
Proof.
  unfold frames_num. rewrite <- Zlt_Qlt. symmetry. apply Nat2Z.inj_lt.
Qed.

Lemma decayRate_update (d : PeakDetect) (fftObject : FFT) :
  decayRate (fst (update d fftObject)) = decayRate d.
Proof. update_paths d fftObject; reflexivity. Qed.

Lemma framesPerPeak_update (d : PeakDetect) (fftObject : FFT) :
  framesPerPeak (fst (update d fftObject)) = framesPerPeak d.
Proof. update_paths d fftObject; reflexivity. Qed.

Lemma reachable_decayRate (d : PeakDetect) : reachable d -> decayRate d = 0.95.
Proof.
  induction 1 as [ | d fftObject _ IH | d callback val _ IH ].
  - reflexivity.
  - rewrite decayRate_update. exact IH.
  - exact IH.
Qed.

(** A non-peak update of a detector whose counter has not passed
    [framesPerPeak] counts the frame and keeps the cutoff. *)
Lemma hold_step (d : PeakDetect) (fftObject : FFT) :
  isDetected (fst (update d fftObject)) = false ->
  framesSinceLastPeak d <= framesPerPeak d ->
  cutoff (fst (update d fftObject)) = cutoff d /\
  framesSinceLastPeak (fst (update d fftObject)) = framesSinceLastPeak d + 1.
Proof.
  rewrite isDetected_update. intros Hquiet Hle.
  update_paths d fftObject; [discriminate | split; reflexivity |].
  apply Qle_bool_false in Hhold. lra.
Qed.

(** A non-peak update of a detector whose counter has passed
    [framesPerPeak] decays the cutoff and keeps the counter. *)
Lemma decay_step (d : PeakDetect) (fftObject : FFT) :
  isDetected (fst (update d fftObject)) = false ->
  framesPerPeak d < framesSinceLastPeak d ->
  cutoff (fst (update d fftObject))
  = Qmax (cutoff d * decayRate d) (threshold d) /\
  framesSinceLastPeak (fst (update d fftObject)) = framesSinceLastPeak d.
Proof.
  rewrite isDetected_update. intros Hquiet Hlt.
  update_paths d fftObject; [discriminate | | split; reflexivity].
  apply Qle_bool_iff in Hhold. lra.
Qed.

(** The timetable of the cutoff over non-peak updates, from a detector that
    has already counted [j] frames of a hold of [S n]. *)
Lemma schedule_from (n : nat) (ffts : list FFT) :
  forall (d : PeakDetect) (j : nat),
    decayRate d = 0.95 ->
    framesPerPeak d == frames_num n ->
    framesSinceLastPeak d == frames_num (Nat.min j (S n)) ->
    quiet d ffts = true ->
    forall k : nat, (k < length ffts)%nat ->
      let before := after d (firstn k ffts) in
      let now := after d (firstn (S k) ffts) in
      ((j + k < S n)%nat -> cutoff now == cutoff before) /\
      ((S n <= j + k)%nat ->
       cutoff now == Qmax (cutoff before * 0.95) (threshold before)).
Proof.
  induction ffts as [|fftObject rest IH]; intros d j Hrate Hfpp Hcount Hquiet k Hk;
    [cbn in Hk; lia|].
  cbn [quiet] in Hquiet. apply andb_true_iff in Hquiet.
  destruct Hquiet as [Hnow Hrest]. apply negb_true_iff in Hnow.
  destruct k as [|k].
  - cbn [firstn after]. rewrite Nat.add_0_r. split; intros Hj.
    + destruct (hold_step d fftObject Hnow) as [Hc _]; [|rewrite Hc; reflexivity].
      rewrite Hcount, Hfpp. apply frames_num_le. lia.
    + destruct (decay_step d fftObject Hnow) as [Hc _].
      * rewrite Hcount, Hfpp. apply frames_num_lt. lia.
      * rewrite Hc, Hrate. reflexivity.
  - change (firstn (S (S k)) (fftObject :: rest))
      with (fftObject :: firstn (S k) rest).
    change (firstn (S k) (fftObject :: rest)) with (fftObject :: firstn k rest).
    cbn [after]. cbn [length] in Hk.
    replace (j + S k)%nat with (S j + k)%nat by lia.
    apply IH; [ | | | assumption | lia].
    + rewrite decayRate_update. assumption.
    + rewrite framesPerPeak_update. assumption.
    + destruct (Nat.le_gt_cases j n) as [Hj | Hj].
      * destruct (hold_step d fftObject Hnow) as [_ Hf].
        { rewrite Hcount, Hfpp. apply frames_num_le. lia. }
        rewrite Hf, Hcount, <- frames_num_S.
        replace (Nat.min (S j) (S n)) with (S (Nat.min j (S n))) by lia.
        reflexivity.
      * destruct (decay_step d fftObject Hnow) as [_ Hf].
        { rewrite Hcount, Hfpp. apply frames_num_lt. lia. }
        rewrite Hf, Hcount.
        replace (Nat.min (S j) (S n)) with (Nat.min j (S n)) by lia.
        reflexivity.
Qed.

(** C4, as the code has it: from the state a fired peak leaves, over any
    run of non-peak updates, the cutoff keeps its value on the first
    [framesPerPeak + 1] of them, and on every one after that it is
    multiplied by 0.95 and then raised to the threshold if below it. *)
Theorem cutoff_held_one_frame_longer
  (d : PeakDetect) (fftObject : FFT) (n : nat) (ffts : list FFT) :
  reachable d ->
  framesPerPeak d == frames_num n ->
  isDetected (fst (update d fftObject)) = true ->
  quiet (fst (update d fftObject)) ffts = true ->
  cutoff_schedule (S n) (fst (update d fftObject)) ffts.
Proof.
  intros Hreach Hfpp Hfire Hquiet k Hk.
  pose proof (schedule_from n ffts (fst (update d fftObject)) 0) as H.
  cbn [Nat.add] in H. apply H; try assumption.
  - rewrite decayRate_update. apply reachable_decayRate, Hreach.
  - rewrite framesPerPeak_update. assumption.
  - destruct (peak_sets_counter d fftObject Hfire) as [Hz _].
    rewrite Hz. reflexivity.
Qed.

(** ** A flat signal *)

Lemma penergy_update (d : PeakDetect) (fftObject : FFT) :
  penergy (fst (update d fftObject)) = sample d fftObject.
Proof. update_paths d fftObject; reflexivity. Qed.

Lemma band_update (d : PeakDetect) (fftObject : FFT) :
  f1 (fst (update d fftObject)) = f1 d /\ f2 (fst (update d fftObject)) = f2 d.
Proof. update_paths d fftObject; split; reflexivity. Qed.

Lemma detections_cons (d : PeakDetect) (fftObject : FFT) (rest : list FFT) :
  detections d (fftObject :: rest)
  = isDetected (fst (update d fftObject))
      :: detections (fst (update d fftObject)) rest.
Proof. reflexivity. Qed.

(** No peak fires while the sample stays at the previous energy. *)
Lemma flat_signal_is_quiet (d0 : PeakDetect) (e : Q) (ffts : list FFT) :
  Forall (fun fftObject => sample d0 fftObject == e) ffts ->
  forall d : PeakDetect,
    f1 d = f1 d0 -> f2 d = f2 d0 -> penergy d == e ->
    detections d ffts = repeat false (length ffts).
Proof.
  induction 1 as [|fftObject rest Hhead _ IH]; intros d Hf1 Hf2 Hprev;
    [reflexivity|].
  assert (Hsame : sample d fftObject = sample d0 fftObject)
    by (unfold sample; rewrite Hf1, Hf2; reflexivity).
  rewrite detections_cons. cbn [length repeat]. f_equal.
  - rewrite isDetected_update.
    destruct (peak_condition d (sample d fftObject)) eqn:Hpeak; [|reflexivity].
    apply peak_condition_true in Hpeak. rewrite Hsame in Hpeak. lra.
  - destruct (band_update d fftObject) as [Hb1 Hb2].
    apply IH; [congruence | congruence |].
    rewrite penergy_update, Hsame. exact Hhead.
Qed.

(** C5, as the code has it: a new detector fed the constant energy
    [threshold + eps], with [eps > 0], reports a peak on the first update
    and on no later one, however long the stream, provided that energy is
    above 0, the initial cutoff. *)
Theorem constant_stream_fires_once
  (freq1 freq2 threshold_arg _framesPerPeak : argument) (eps : Q)
  (ffts : list FFT) :
  let d := new_PeakDetect freq1 freq2 threshold_arg _framesPerPeak in
  0 < eps ->
  0 < threshold d + eps ->
  Forall (fun fftObject => sample d fftObject == threshold d + eps) ffts ->
  detections d ffts
  = match ffts with
    | [] => []
    | _ :: rest => true :: repeat false (length rest)
    end.
Proof.
  intros d Heps Hpos Hflat.
  destruct ffts as [|fftObject rest]; [reflexivity|].
  inversion Hflat as [|? ? Hhead Hrest]; subst.
  rewrite detections_cons. f_equal.
  - rewrite isDetected_update. apply peak_condition_true.
    change (cutoff d) with 0. change (penergy d) with 0. lra.
  - destruct (band_update d fftObject) as [Hb1 Hb2].
    apply (flat_signal_is_quiet d (threshold d + eps)); try assumption.
    rewrite penergy_update. exact Hhead.
Qed.

(** ** The observer *)

Lemma _onPeak_update (d : PeakDetect) (fftObject : FFT) :
  _onPeak (fst (update d fftObject)) = _onPeak d.
Proof. update_paths d fftObject; reflexivity. Qed.

(** The calls of one [update] of a detector whose observer is the closure
    over [callback] and [val]. *)
Lemma calls_of_update (d : PeakDetect) (callback : Cb) (val : Val)
  (fftObject : FFT) :
  _onPeak d = forwarder callback val ->
  snd (update d fftObject)
  = if isDetected (fst (update d fftObject))
    then [Called callback (energy (fst (update d fftObject))) val]
    else [].
Proof.
  intros Hobs. update_paths d fftObject; try reflexivity.
  unfold fire. cbn. rewrite Hobs. reflexivity.
Qed.

Lemma calls_of_frames (callback : Cb) (val : Val) (ffts : list FFT) :
  forall d : PeakDetect,
    _onPeak d = forwarder callback val ->
    Forall (fun r => snd r = if isDetected (fst r)
                             then [Called callback (energy (fst r)) val]
                             else [])
           (frames d ffts).
Proof.
  induction ffts as [|fftObject rest IH]; intros d Hobs; cbn [frames];
    constructor.
  - apply calls_of_update, Hobs.
  - apply IH. rewrite _onPeak_update. exact Hobs.
Qed.

(** C8: after [onPeak(callback, val)], whatever observer was registered
    before, every later update that fires a peak makes exactly one call,
    [callback(energy, val)] with the detector's current [energy], and an
    update that fires no peak makes no call. *)
Theorem onPeak_replaces_observer
  (d : PeakDetect) (callback : Cb) (val : Val) (ffts : list FFT) :
  Forall (fun r => snd r = if isDetected (fst r)
                           then [Called callback (energy (fst r)) val]
                           else [])
         (frames (onPeak d callback val) ffts).
Proof. apply calls_of_frames. reflexivity. Qed.

Lemma update_onPeak (d : PeakDetect) (callback : Cb) (val : Val)
  (fftObject : FFT) :
  fst (update (onPeak d callback val) fftObject)
  = onPeak (fst (update d fftObject)) callback val.
Proof.
  rewrite (update_unfold d fftObject),
    (update_unfold (onPeak d callback val) fftObject).
  cbv zeta.
  change (sample (onPeak d callback val) fftObject) with (sample d fftObject).
  change (peak_condition (onPeak d callback val) (sample d fftObject))
    with (peak_condition d (sample d fftObject)).
  cbn [onPeak set__onPeak framesPerPeak framesSinceLastPeak].
  destruct (peak_condition d _); [reflexivity|].
  destruct (Qle_bool _ _); reflexivity.
Qed.

Lemma no_op_makes_no_call (d : PeakDetect) (fftObject : FFT) :
  _onPeak d = no_op -> snd (update d fftObject) = [].
Proof.
  intros Hobs. update_paths d fftObject; try reflexivity.
  unfold fire. cbn. rewrite Hobs. reflexivity.
Qed.

Lemma no_op_frames (ffts : list FFT) :
  forall d : PeakDetect,
    _onPeak d = no_op -> Forall (fun r => snd r = []) (frames d ffts).
Proof.
  induction ffts as [|fftObject rest IH]; intros d Hobs; cbn [frames];
    constructor.
  - apply no_op_makes_no_call, Hobs.
  - apply IH. rewrite _onPeak_update. exact Hobs.
Qed.

Lemma drive_no_op (ffts : list FFT) :
  forall (d : PeakDetect) (w : W),
    _onPeak d = no_op -> drive d w ffts = (after d ffts, w).
Proof.
  induction ffts as [|fftObject rest IH]; intros d w Hobs; cbn [drive after];
    [reflexivity|].
  rewrite (no_op_makes_no_call d fftObject Hobs). cbn [perform fold_left].
  apply IH. rewrite _onPeak_update. exact Hobs.
Qed.

Lemma drive_idle_callback (callback : Cb) (val : Val) (ffts : list FFT) :
  (forall e v w, call callback e v w = w) ->
  forall (d : PeakDetect) (w : W),
    drive (onPeak d callback val) w ffts
    = (onPeak (after d ffts) callback val, w).
Proof.
  intros Hidle.
  induction ffts as [|fftObject rest IH]; intros d w; cbn [drive after];
    [reflexivity|].
  rewrite (calls_of_update (onPeak d callback val) callback val fftObject eq_refl).
  rewrite update_onPeak.
  replace (perform w _) with w; [apply IH|].
  destruct (isDetected _); cbn [perform fold_left]; [|reflexivity].
  symmetry. apply Hidle.
Qed.

(** C10: the constructor registers the empty function as observer.  So
    updates of a new detector, peaks included, make no call and leave the
    user's state alone, and they leave every property of the detector as the
    same updates do after registering a callback that has no effect. *)
Theorem new_detector_has_no_op_observer
  (freq1 freq2 threshold_arg _framesPerPeak : argument)
  (callback : Cb) (val : Val) (w : W) (ffts : list FFT) :
  (forall e v w', call callback e v w' = w') ->
  let d := new_PeakDetect freq1 freq2 threshold_arg _framesPerPeak in
  _onPeak d = no_op /\
  Forall (fun r => snd r = []) (frames d ffts) /\
  snd (drive d w ffts) = w /\
  snd (drive (onPeak d callback val) w ffts) = snd (drive d w ffts) /\
  properties (fst (drive (onPeak d callback val) w ffts))
  = properties (fst (drive d w ffts)).
Proof.
  intros Hidle d.
  rewrite (drive_no_op ffts d w eq_refl).
  rewrite (drive_idle_callback callback val ffts Hidle d w).
  repeat split. apply no_op_frames. reflexivity.
Qed.

(** ** More about one update and about runs *)

Lemma threshold_update (d : PeakDetect) (fftObject : FFT) :
  threshold (fst (update d fftObject)) = threshold d.
Proof. update_paths d fftObject; reflexivity. Qed.

Lemma after_app (ffts more : list FFT) :
  forall d : PeakDetect, after d (ffts ++ more) = after (after d ffts) more.
Proof.
  induction ffts as [|fftObject rest IH]; intros d; cbn [after app];
    [reflexivity | apply IH].
Qed.

Lemma settings_after (ffts : list FFT) :
  forall d : PeakDetect,
    f1 (after d ffts) = f1 d /\ f2 (after d ffts) = f2 d /\
    threshold (after d ffts) = threshold d /\
    framesPerPeak (after d ffts) = framesPerPeak d /\
    decayRate (after d ffts) = decayRate d.
Proof.
  induction ffts as [|fftObject rest IH]; intros d; cbn [after];
    [repeat split|].
  destruct (IH (fst (update d fftObject))) as (H1 & H2 & H3 & H4 & H5).
  destruct (band_update d fftObject) as [Hb1 Hb2].
  rewrite H1, H2, H3, H4, H5, Hb1, Hb2, threshold_update,
    framesPerPeak_update, decayRate_update.
  repeat split.
Qed.

Lemma sample_update (d : PeakDetect) (first second : FFT) :
  sample (fst (update d first)) second = sample d second.
Proof.
  destruct (band_update d first) as [Hb1 Hb2].
  unfold sample. rewrite Hb1, Hb2. reflexivity.
Qed.

Lemma sample_after (ffts : list FFT) (d : PeakDetect) (fftObject : FFT) :
  sample (after d ffts) fftObject = sample d fftObject.
Proof.
  destruct (settings_after ffts d) as (H1 & H2 & _).
  unfold sample. rewrite H1, H2. reflexivity.
Qed.

Lemma reachable_after (ffts : list FFT) :
  forall d : PeakDetect, reachable d -> reachable (after d ffts).
Proof.
  induction ffts as [|fftObject rest IH]; intros d Hd; cbn [after];
    [assumption|].
  apply IH, reach_update, Hd.
Qed.

Lemma cutoff_nonneg_update (d : PeakDetect) (fftObject : FFT) :
  decayRate d = 0.95 -> 0 <= cutoff d ->
  0 <= cutoff (fst (update d fftObject)).
Proof.
  intros Hrate Hpos. update_paths d fftObject.
  - apply peak_condition_true in Hpeak. lra.
  - assumption.
  - apply Qle_trans with (cutoff d * decayRate d); [|apply Q.le_max_l].
    rewrite Hrate. lra.
Qed.

Lemma reachable_cutoff_nonneg (d : PeakDetect) : reachable d -> 0 <= cutoff d.
Proof.
  induction 1 as [ | d fftObject Hd IH | d callback val _ IH ].
  - cbn. lra.
  - apply cutoff_nonneg_update; [apply reachable_decayRate, Hd | exact IH].
  - exact IH.
Qed.

(** X1: an update whose sample does not exceed the sample of the update
    just before it fires no peak, whatever the detector; in particular a
    second update from an analyser that was not refreshed fires none. *)
Theorem no_peak_without_rise (d : PeakDetect) (first second : FFT) :
  sample d second <= sample d first ->
  isDetected (fst (update (fst (update d first)) second)) = false.
Proof.
  intros Hfall. rewrite isDetected_update.
  destruct (peak_condition _ _) eqn:Hpeak; [|reflexivity].
  apply peak_condition_true in Hpeak. destruct Hpeak as (_ & _ & Hrise).
  rewrite penergy_update, sample_update in Hrise. lra.
Qed.

(** X2: the cutoff of a detector built by the constructor and changed by
    the methods only is never negative, so an update whose sample is zero
    or negative fires no peak. *)
Theorem no_peak_on_nonpositive_sample (d : PeakDetect) (fftObject : FFT) :
  reachable d ->
  0 <= cutoff d /\
  (sample d fftObject <= 0 -> isDetected (fst (update d fftObject)) = false).
Proof.
  intros Hd. pose proof (reachable_cutoff_nonneg d Hd) as Hpos.
  split; [assumption|]. intros Hlow. rewrite isDetected_update.
  destruct (peak_condition _ _) eqn:Hpeak; [|reflexivity].
  apply peak_condition_true in Hpeak. lra.
Qed.

(** The frame counter is a whole number of frames, zero or at most one
    past [framesPerPeak]. *)
Lemma counter_update (d : PeakDetect) (fftObject : FFT) :
  (exists n : nat, framesSinceLastPeak d == frames_num n /\
                   (n = O \/ frames_num n <= framesPerPeak d + 1)) ->
  exists n : nat,
    framesSinceLastPeak (fst (update d fftObject)) == frames_num n /\
    (n = O \/
     frames_num n <= framesPerPeak (fst (update d fftObject)) + 1).
Proof.
  intros (n & Hn & Hbound). rewrite framesPerPeak_update.
  update_paths d fftObject.
  - exists O. split; [reflexivity | left; reflexivity].
  - exists (S n). apply Qle_bool_iff in Hhold. split.
    + rewrite frames_num_S, Hn. reflexivity.
    + right. rewrite frames_num_S, <- Hn. lra.
  - exists n. split; assumption.
Qed.

Lemma reachable_counter (d : PeakDetect) :
  reachable d ->
  exists n : nat, framesSinceLastPeak d == frames_num n /\
                  (n = O \/ frames_num n <= framesPerPeak d + 1).
Proof.
  induction 1 as [ | d fftObject _ IH | d callback val _ IH ].
  - exists O. split; [reflexivity | left; reflexivity].
  - apply counter_update, IH.
  - exact IH.
Qed.

Lemma frames_num_nonneg (n : nat) : 0 <= frames_num n.
Proof. change 0 with (frames_num 0). apply frames_num_le. lia. Qed.

(** X3: [framesSinceLastPeak] is always a whole number of frames; it is
    never negative and never more than one past [framesPerPeak] (it stays 0
    when [framesPerPeak] is negative). *)
Theorem counter_saturates (d : PeakDetect) :
  reachable d ->
  (exists n : nat, framesSinceLastPeak d == frames_num n) /\
  0 <= framesSinceLastPeak d /\
  framesSinceLastPeak d <= Qmax 0 (framesPerPeak d + 1).
Proof.
  intros Hd. destruct (reachable_counter d Hd) as (n & Hn & Hbound).
  split; [exists n; exact Hn|]. split.
  - rewrite Hn. apply frames_num_nonneg.
  - rewrite Hn. destruct Hbound as [-> | Hle].
    + apply Q.le_max_l.
    + apply Qle_trans with (framesPerPeak d + 1);
        [assumption | apply Q.le_max_r].
Qed.

(** X4: a fired peak strictly raises the cutoff, and leaves it strictly
    above the sample and above the threshold. *)
Theorem peak_raises_cutoff (d : PeakDetect) (fftObject : FFT) :
  reachable d ->
  isDetected (fst (update d fftObject)) = true ->
  cutoff d < cutoff (fst (update d fftObject)) /\
  sample d fftObject < cutoff (fst (update d fftObject)) /\
  threshold d < cutoff (fst (update d fftObject)).
Proof.
  intros Hd Hfire. pose proof (reachable_cutoff_nonneg d Hd) as Hpos.
  destruct (peak_sets_counter d fftObject Hfire) as (_ & Hc & _).
  rewrite isDetected_update in Hfire.
  apply peak_condition_true in Hfire. rewrite Hc. lra.
Qed.

Lemma floor_kept_by_update (d : PeakDetect) (fftObject : FFT) :
  decayRate d = 0.95 -> 0 <= cutoff d -> threshold d <= cutoff d ->
  threshold d <= cutoff (fst (update d fftObject)).
Proof.
  intros Hrate Hpos Hfloor. update_paths d fftObject.
  - apply peak_condition_true in Hpeak. lra.
  - assumption.
  - apply Q.le_max_r.
Qed.

(** X5: once the cutoff of a detector is at or above its threshold, it
    stays at or above it after any further updates. *)
Theorem floor_is_kept (d : PeakDetect) (ffts : list FFT) :
  reachable d ->
  threshold d <= cutoff d ->
  threshold (after d ffts) <= cutoff (after d ffts).
Proof.
  intros Hd. revert d Hd.
  induction ffts as [|fftObject rest IH]; intros d Hd Hfloor; cbn [after];
    [assumption|].
  apply IH; [apply reach_update, Hd|].
  rewrite threshold_update.
  apply floor_kept_by_update;
    [apply reachable_decayRate, Hd | apply reachable_cutoff_nonneg, Hd
     | assumption].
Qed.

(** X6: an update that fires no peak never raises a cutoff that is at or
    above the threshold: only a peak raises it. *)
Theorem quiet_update_lowers_cutoff (d : PeakDetect) (fftObject : FFT) :
  reachable d ->
  threshold d <= cutoff d ->
  isDetected (fst (update d fftObject)) = false ->
  cutoff (fst (update d fftObject)) <= cutoff d.
Proof.
  intros Hd Hfloor Hquiet.
  pose proof (reachable_cutoff_nonneg d Hd) as Hpos.
  pose proof (reachable_decayRate d Hd) as Hrate.
  rewrite isDetected_update in Hquiet. revert Hquiet.
  update_paths d fftObject; intros Hquiet; try discriminate.
  - lra.
  - rewrite Hrate. apply Q.max_lub; lra.
Qed.

(** ** The hold as a debounce *)

Lemma cutoff_held (n : nat) (ffts : list FFT) :
  forall (d : PeakDetect) (j : nat),
    framesPerPeak d == frames_num n ->
    framesSinceLastPeak d == frames_num j ->
    quiet d ffts = true ->
    (j + length ffts <= S n)%nat ->
    cutoff (after d ffts) = cutoff d.
Proof.
  induction ffts as [|fftObject rest IH]; intros d j Hfpp Hcount Hquiet Hlen;
    cbn [after]; [reflexivity|].
  cbn [quiet] in Hquiet. apply andb_true_iff in Hquiet.
  destruct Hquiet as [Hnow Hrest]. apply negb_true_iff in Hnow.
  cbn [length] in Hlen.
  destruct (hold_step d fftObject Hnow) as [Hc Hf].
  { rewrite Hcount, Hfpp. apply frames_num_le. lia. }
  rewrite <- Hc. apply (IH _ (S j)); [ | | assumption | lia].
  - rewrite framesPerPeak_update. assumption.
  - rewrite Hf, Hcount, <- frames_num_S. reflexivity.
Qed.

(** X7: for [framesPerPeak + 1] frames after a peak on the sample [e], a
    new peak can fire only on a sample above [1.1 * e]. *)
Theorem next_peak_in_hold_exceeds_last
  (d : PeakDetect) (peak : FFT) (n : nat) (ffts : list FFT) (next : FFT) :
  framesPerPeak d == frames_num n ->
  isDetected (fst (update d peak)) = true ->
  quiet (fst (update d peak)) ffts = true ->
  (length ffts <= S n)%nat ->
  isDetected (fst (update (after (fst (update d peak)) ffts) next)) = true ->
  sample d next > sample d peak * 1.1.
Proof.
  intros Hfpp Hfire Hquiet Hlen Hnext.
  destruct (peak_sets_counter d peak Hfire) as (Hzero & Hc & _).
  rewrite isDetected_update in Hnext. apply peak_condition_true in Hnext.
  destruct Hnext as (Hcut & _).
  rewrite sample_after, sample_update in Hcut.
  rewrite (cutoff_held n ffts (fst (update d peak)) 0) in Hcut;
    [ rewrite Hc in Hcut; exact Hcut | | | assumption | cbn; lia ].
  - rewrite framesPerPeak_update. assumption.
  - rewrite Hzero. reflexivity.
Qed.

(** ** Detection and the observer *)

Lemma after_onPeak (callback : Cb) (val : Val) (ffts : list FFT) :
  forall d : PeakDetect,
    after (onPeak d callback val) ffts = onPeak (after d ffts) callback val.
Proof.
  induction ffts as [|fftObject rest IH]; intros d; cbn [after];
    [reflexivity|].
  rewrite update_onPeak. apply IH.
Qed.

Lemma detections_onPeak (callback : Cb) (val : Val) (ffts : list FFT) :
  forall d : PeakDetect,
    detections (onPeak d callback val) ffts = detections d ffts.
Proof.
  induction ffts as [|fftObject rest IH]; intros d; [reflexivity|].
  rewrite !detections_cons, update_onPeak, IH. reflexivity.
Qed.

(** X8: registering an observer changes neither what a run of updates
    detects nor the detector it leaves, apart from the observer itself:
    [onPeak] before the run and [onPeak] after it give the same detector. *)
Theorem detection_ignores_observer
  (d : PeakDetect) (callback : Cb) (val : Val) (ffts : list FFT) :
  detections (onPeak d callback val) ffts = detections d ffts /\
  after (onPeak d callback val) ffts = onPeak (after d ffts) callback val.
Proof. split; [apply detections_onPeak | apply after_onPeak]. Qed.

Lemma peaks_and_calls (callback : Cb) (val : Val) (ffts : list FFT) :
  forall d : PeakDetect,
    _onPeak d = forwarder callback val ->
    length (calls_made d ffts) = peaks_fired d ffts.
Proof.
  unfold calls_made, peaks_fired.
  induction ffts as [|fftObject rest IH]; intros d Hobs; [reflexivity|].
  rewrite detections_cons. cbn [frames map concat filter].
  rewrite length_app, (calls_of_update d callback val fftObject Hobs).
  rewrite IH by (rewrite _onPeak_update; exact Hobs).
  destruct (isDetected (fst (update d fftObject))); reflexivity.
Qed.

(** X9: over any run of updates after [onPeak], the callback is called as
    many times as [isDetected] was set to true. *)
Theorem one_call_per_peak
  (d : PeakDetect) (callback : Cb) (val : Val) (ffts : list FFT) :
  length (calls_made (onPeak d callback val) ffts)
  = peaks_fired (onPeak d callback val) ffts.
Proof. apply (peaks_and_calls callback val). reflexivity. Qed.

(** X10: between calls, [energy] and [penergy] hold the same sample, and
    while [isDetected] reads true the frame counter is 0 and the cutoff is
    1.1 times [energy]. *)
Theorem state_between_calls (d : PeakDetect) :
  reachable d ->
  energy d = penergy d /\
  (isDetected d = true ->
   framesSinceLastPeak d = 0 /\ cutoff d = energy d * 1.1).
Proof.
  induction 1 as [ | d fftObject _ IH | d callback val _ IH ].
  - split; [reflexivity | discriminate].
  - update_paths d fftObject;
      (split; [reflexivity | intros Hdet; try discriminate]).
    split; reflexivity.
  - exact IH.
Qed.

(** ** A bound on the cutoff *)

Lemma bounded_update (d : PeakDetect) (fftObject : FFT) (bound : Q) :
  decayRate d = 0.95 -> 0 <= cutoff d ->
  cutoff d <= bound -> threshold d <= bound ->
  sample d fftObject * 1.1 <= bound ->
  cutoff (fst (update d fftObject)) <= bound.
Proof.
  intros Hrate Hpos Hc Ht Hs. update_paths d fftObject.
  - assumption.
  - assumption.
  - rewrite Hrate. apply Q.max_lub; lra.
Qed.

Lemma bounded_after (d0 : PeakDetect) (bound : Q) (ffts : list FFT) :
  Forall (fun fftObject => sample d0 fftObject * 1.1 <= bound) ffts ->
  forall d : PeakDetect,
    reachable d -> f1 d = f1 d0 -> f2 d = f2 d0 ->
    cutoff d <= bound -> threshold d <= bound ->
    cutoff (after d ffts) <= bound.
Proof.
  induction 1 as [|fftObject rest Hhead _ IH]; intros d Hd Hf1 Hf2 Hc Ht;
    cbn [after]; [assumption|].
  destruct (band_update d fftObject) as [Hb1 Hb2].
  apply IH; [apply reach_update, Hd | congruence | congruence | |].
  - apply bounded_update;
      [ apply reachable_decayRate, Hd | apply reachable_cutoff_nonneg, Hd
      | assumption | assumption |].
    unfold sample in *. rewrite Hf1, Hf2. exact Hhead.
  - rewrite threshold_update. assumption.
Qed.

(** X11: while every sample is at most [M], the cutoff never exceeds the
    larger of [1.1 * M] and the threshold, provided it starts within that
    bound (as the initial cutoff 0 does when [M] is not negative). *)
Theorem cutoff_bounded_by_loudest_sample
  (d : PeakDetect) (M : Q) (ffts : list FFT) :
  reachable d ->
  cutoff d <= Qmax (M * 1.1) (threshold d) ->
  Forall (fun fftObject => sample d fftObject <= M) ffts ->
  cutoff (after d ffts) <= Qmax (M * 1.1) (threshold d).
Proof.
  intros Hd Hc Hall.
  apply (bounded_after d); try assumption; try reflexivity.
  - apply Forall_impl with (2 := Hall). intros fftObject Hs.
    apply Qle_trans with (M * 1.1); [lra | apply Q.le_max_l].
  - apply Q.le_max_r.
Qed.

(** ** The decay *)

Lemma quiet_app (ffts more : list FFT) :
  forall d : PeakDetect,
    quiet d (ffts ++ more) = quiet d ffts && quiet (after d ffts) more.
Proof.
  induction ffts as [|fftObject rest IH]; intros d; cbn [quiet after app];
    [reflexivity|].
  rewrite IH, andb_assoc. reflexivity.
Qed.

(** Past the hold, non-peak updates leave the frame counter alone. *)
Lemma counter_kept_in_decay (ffts : list FFT) :
  forall d : PeakDetect,
    framesPerPeak d < framesSinceLastPeak d ->
    quiet d ffts = true ->
    framesSinceLastPeak (after d ffts) = framesSinceLastPeak d.
Proof.
  induction ffts as [|fftObject rest IH]; intros d Hpast Hquiet; cbn [after];
    [reflexivity|].
  cbn [quiet] in Hquiet. apply andb_true_iff in Hquiet.
  destruct Hquiet as [Hnow Hrest]. apply negb_true_iff in Hnow.
  destruct (decay_step d fftObject Hnow Hpast) as [_ Hf].
  rewrite <- Hf. apply IH; [|assumption].
  rewrite framesPerPeak_update, Hf. assumption.
Qed.

Lemma decay_of_max (x th : Q) :
  0 <= th -> Qmax (Qmax x th * 0.95) th == Qmax (x * 0.95) th.
Proof.
  intros Hth.
  destruct (Q.max_spec x th) as [[H1 E1] | [H1 E1]];
    destruct (Q.max_spec (Qmax x th * 0.95) th) as [[H2 E2] | [H2 E2]];
    destruct (Q.max_spec (x * 0.95) th) as [[H3 E3] | [H3 E3]];
    rewrite E2, E3; lra.
Qed.

Lemma decay_closed_form_from (d : PeakDetect) (ffts : list FFT) :
  decayRate d = 0.95 ->
  0 <= threshold d ->
  threshold d <= cutoff d ->
  framesPerPeak d < framesSinceLastPeak d ->
  quiet d ffts = true ->
  cutoff (after d ffts)
  == Qmax (cutoff d * decay_factor (length ffts)) (threshold d).
Proof.
  intros Hrate Hth Hfloor Hpast.
  induction ffts as [|fftObject rest IH] using rev_ind; intros Hquiet.
  - cbn [after length decay_factor]. rewrite Q.max_l by lra. ring.
  - rewrite quiet_app in Hquiet. apply andb_true_iff in Hquiet.
    destruct Hquiet as [Hrest Hlast]. cbn [quiet] in Hlast.
    rewrite andb_true_r in Hlast. apply negb_true_iff in Hlast.
    specialize (IH Hrest).
    destruct (settings_after rest d) as (_ & _ & Ht & Hp & Hr).
    rewrite after_app. cbn [after].
    destruct (decay_step (after d rest) fftObject Hlast) as [Hc _].
    { rewrite Hp, (counter_kept_in_decay rest d Hpast Hrest). assumption. }
    rewrite Hc, Hr, Hrate, Ht, IH.
    rewrite length_app. cbn [length]. rewrite Nat.add_1_r.
    cbn [decay_factor]. rewrite decay_of_max by assumption.
    rewrite Qmult_assoc. reflexivity.
Qed.

Lemma decay_factor_bound (k : nat) :
  0 <= decay_factor k /\ decay_factor k * (19 + frames_num k) <= 19.
Proof.
  induction k as [|k [Hpos Hbound]].
  - cbn [decay_factor]. change (frames_num 0) with 0. split; lra.
  - cbn [decay_factor]. split; [lra|].
    rewrite frames_num_S.
    pose proof (Qmult_le_0_compat _ _ Hpos (frames_num_nonneg k)) as Hprod.
    lra.
Qed.

Lemma frames_to_floor_enough (d : PeakDetect) (k : nat) :
  0 < threshold d ->
  (frames_to_floor d <= k)%nat ->
  19 * cutoff d <= frames_num k * threshold d.
Proof.
  intros Hth Hk. apply frames_num_le in Hk.
  assert (Hceil : 19 * cutoff d / threshold d <= frames_num (frames_to_floor d)).
  { apply Qle_trans with (inject_Z (Qceiling (19 * cutoff d / threshold d)));
      [apply Qle_ceiling|].
    unfold frames_num, frames_to_floor. rewrite <- Zle_Qle. lia. }
  assert (Hmul : 19 * cutoff d / threshold d * threshold d
                 <= frames_num k * threshold d).
  { apply Qmult_le_compat_r; lra. }
  assert (Hfield : 19 * cutoff d / threshold d * threshold d == 19 * cutoff d)
    by (field; lra).
  lra.
Qed.

(** X13: past the hold, a run of non-peak updates brings the cutoff down to
    a positive threshold after finitely many frames, [frames_to_floor] of
    them at most, and the cutoff then stays there as long as no peak
    fires. *)
Theorem cutoff_reaches_threshold (d : PeakDetect) (ffts : list FFT) :
  reachable d ->
  0 < threshold d ->
  threshold d <= cutoff d ->
  framesPerPeak d < framesSinceLastPeak d ->
  quiet d ffts = true ->
  (frames_to_floor d <= length ffts)%nat ->
  cutoff (after d ffts) == threshold d.
Proof.
  intros Hd Hth Hfloor Hpast Hquiet Hlen.
  rewrite (decay_closed_form_from d ffts (reachable_decayRate d Hd));
    try assumption; [|lra].
  apply Q.max_r.
  destruct (decay_factor_bound (length ffts)) as [Hpos Hbound].
  pose proof (frames_to_floor_enough d (length ffts) Hth Hlen) as Henough.
  pose proof (frames_num_nonneg (length ffts)) as HK.
  pose proof (reachable_cutoff_nonneg d Hd) as Hc.
  apply (Qmult_le_r _ _ (19 + frames_num (length ffts))); [lra|].
  apply Qle_trans with (cutoff d * 19).
  - setoid_replace (cutoff d * decay_factor (length ffts)
                    * (19 + frames_num (length ffts)))
      with (decay_factor (length ffts) * (19 + frames_num (length ffts))
            * cutoff d) by ring.
    setoid_replace (cutoff d * 19) with (19 * cutoff d) by ring.
    apply Qmult_le_compat_r; assumption.
  - lra.
Qed.

(** During the hold every non-peak update counts one frame. *)
Lemma counter_in_hold (n : nat) (ffts : list FFT) :
  forall (d : PeakDetect) (j : nat),
    framesPerPeak d == frames_num n ->
    framesSinceLastPeak d == frames_num j ->
    quiet d ffts = true ->
    (j + length ffts <= S n)%nat ->
    framesSinceLastPeak (after d ffts) == frames_num (j + length ffts).
Proof.
  induction ffts as [|fftObject rest IH]; intros d j Hfpp Hcount Hquiet Hlen;
    cbn [after length].
  - rewrite Nat.add_0_r. assumption.
  - cbn [quiet] in Hquiet. apply andb_true_iff in Hquiet.
    destruct Hquiet as [Hnow Hrest]. apply negb_true_iff in Hnow.
    cbn [length] in Hlen.
    destruct (hold_step d fftObject Hnow) as [_ Hf].
    { rewrite Hcount, Hfpp. apply frames_num_le. lia. }
    rewrite <- Nat.add_succ_comm. apply IH; [ | | assumption | lia].
    + rewrite framesPerPeak_update. assumption.
    + rewrite Hf, Hcount, <- frames_num_S. reflexivity.
Qed.

(** X14: after a peak, silence makes the detector sensitive again: over a
    run of non-peak updates that is [framesPerPeak + 1] frames of hold and
    then [frames_to_floor] frames of decay long, or longer, the cutoff comes
    down to the (positive) threshold. *)
Theorem silence_after_peak_resets_cutoff
  (d : PeakDetect) (peak : FFT) (n : nat) (ffts : list FFT) :
  reachable d ->
  0 < threshold d ->
  framesPerPeak d == frames_num n ->
  isDetected (fst (update d peak)) = true ->
  quiet (fst (update d peak)) ffts = true ->
  (S n + frames_to_floor (fst (update d peak)) <= length ffts)%nat ->
  cutoff (after (fst (update d peak)) ffts) == threshold d.
Proof.
  intros Hd Hth Hfpp Hfire Hquiet Hlen.
  destruct (peak_sets_counter d peak Hfire) as (Hzero & Hc & _).
  rewrite isDetected_update in Hfire. apply peak_condition_true in Hfire.
  pose proof (reachable_cutoff_nonneg d Hd) as Hpos0.
  pose proof (threshold_update d peak) as Hth1.
  pose proof (framesPerPeak_update d peak) as Hp1.
  pose proof (reach_update d peak Hd) as Hd1.
  set (d1 := fst (update d peak)) in *.
  assert (Hfpp1 : framesPerPeak d1 == frames_num n)
    by (rewrite Hp1; assumption).
  assert (Hcount : framesSinceLastPeak d1 == frames_num 0)
    by (rewrite Hzero; reflexivity).
  assert (Hfloor1 : threshold d1 < cutoff d1) by (rewrite Hth1, Hc; lra).
  rewrite <- (firstn_skipn (S n) ffts) in Hquiet |- *.
  set (hold := firstn (S n) ffts) in *.
  set (rest := skipn (S n) ffts) in *.
  assert (Hhold : length hold = S n).
  { apply firstn_length_le. apply Nat.le_trans with (2 := Hlen).
    apply Nat.le_add_r. }
  assert (Hrest : (frames_to_floor d1 <= length rest)%nat).
  { unfold rest. rewrite length_skipn. apply Nat.le_add_le_sub_l, Hlen. }
  rewrite quiet_app in Hquiet. apply andb_true_iff in Hquiet.
  destruct Hquiet as [Hq1 Hq2].
  rewrite after_app.
  set (d2 := after d1 hold) in *.
  destruct (settings_after hold d1) as (_ & _ & Ht2 & Hp2 & _). fold d2 in Ht2, Hp2.
  assert (Hc2 : cutoff d2 = cutoff d1)
    by (apply (cutoff_held n hold d1 0); try assumption;
        rewrite Hhold; apply Nat.le_refl).
  assert (Hf2 : framesSinceLastPeak d2 == frames_num (S n)).
  { unfold d2. rewrite (counter_in_hold n hold d1 0); try assumption.
    - rewrite Hhold. reflexivity.
    - rewrite Hhold. apply Nat.le_refl. }
  assert (Hsame : frames_to_floor d2 = frames_to_floor d1)
    by (unfold frames_to_floor; rewrite Hc2, Ht2; reflexivity).
  rewrite <- Hth1, <- Ht2.
  pose proof (reachable_after hold d1 Hd1) as Hd2. fold d2 in Hd2.
  pose proof (reachable_decayRate d2 Hd2) as Hrate2.
  pose proof (reachable_cutoff_nonneg d2 Hd2) as Hpos2.
  rewrite (decay_closed_form_from d2 rest Hrate2); try assumption.
  - apply Q.max_r.
    destruct (decay_factor_bound (length rest)) as [Hpos Hbound].
    assert (Henough : 19 * cutoff d2 <= frames_num (length rest) * threshold d2).
    { apply frames_to_floor_enough; [rewrite Ht2, Hth1; assumption|].
      rewrite Hsame. assumption. }
    pose proof (frames_num_nonneg (length rest)) as HK.
    apply (Qmult_le_r _ _ (19 + frames_num (length rest))); [lra|].
    apply Qle_trans with (cutoff d2 * 19).
    + setoid_replace (cutoff d2 * decay_factor (length rest)
                      * (19 + frames_num (length rest)))
        with (decay_factor (length rest) * (19 + frames_num (length rest))
              * cutoff d2) by ring.
      setoid_replace (cutoff d2 * 19) with (19 * cutoff d2) by ring.
      apply Qmult_le_compat_r; assumption.
    + rewrite Ht2, Hth1 in *. lra.
  - rewrite Ht2, Hth1. lra.
  - rewrite Ht2, Hc2. lra.
  - rewrite Hp2, Hf2, Hfpp1. apply frames_num_lt. lia.
Qed.

End Detector.

Arguments no_op {Cb Val}.
Arguments forwarder {Cb Val} _ _.
Arguments Called {Cb Val} _ _ _.
Arguments framesPerPeak {Cb Val} _.
Arguments framesSinceLastPeak {Cb Val} _.
Arguments decayRate {Cb Val} _.
Arguments threshold {Cb Val} _.
Arguments cutoff {Cb Val} _.
Arguments energy {Cb Val} _.
Arguments penergy {Cb Val} _.
Arguments isDetected {Cb Val} _.
Arguments f1 {Cb Val} _.
Arguments f2 {Cb Val} _.
Arguments _onPeak {Cb Val} _.
Arguments sample {Cb Val} _ _.
Arguments peak_condition {Cb Val} _ _.
Arguments update {Cb Val} _ _.
Arguments onPeak {Cb Val} _ _ _.
Arguments after {Cb Val} _ _.
Arguments frames {Cb Val} _ _.
Arguments detections {Cb Val} _ _.
Arguments quiet {Cb Val} _ _.
Arguments reachable {Cb Val} _.
Arguments reach_new {Cb Val} _ _ _ _.
Arguments properties {Cb Val} _.
Arguments perform {Cb Val W} _ _ _.
Arguments drive {Cb Val W} _ _ _ _.
Arguments cutoff_schedule {Cb Val} _ _ _.

(** ** Concrete detectors

    Callbacks and the values passed with them are numbered here; the user's
    state is a counter that no callback changes. *)

(** The floor [cutoff >= threshold] of C2 does not hold right after
    construction: on the first update of a default detector, fed the energy
    0.1, no peak fires, the cutoff keeps its initial 0 and the threshold is
    0.25. *)
Lemma cutoff_below_threshold_on_first_frame :
  let d := after (new_PeakDetect nat nat Omitted Omitted Omitted Omitted)
                 [fft_with_energy 0.1] in
  cutoff d == 0 /\ threshold d == 0.25 /\ ~ threshold d <= cutoff d.
Proof.
  cbv zeta. repeat split.
  intros H. apply Qle_bool_iff in H. vm_compute in H. discriminate.
Qed.

(** In the worked example of C3 a peak fires at index 1: the energy 0.3 is
    above the cutoff 0, above the threshold 0.25 and above the previous
    energy 0.1. *)
Lemma example_fires_at_index_1 :
  nth 1 (detections (example_detector nat nat) example_signal) false = true.
Proof. vm_compute. reflexivity. Qed.

(** The hold of C4 is not [framesPerPeak] frames long.  With two frames per
    peak, a peak at 0.3 and then three frames at 0.1, the third non-peak
    frame still leaves the cutoff at 0.33 instead of decaying it. *)
Lemma cutoff_still_held_on_frame_after_framesPerPeak :
  let d := example_detector nat nat in
  let peak := fft_with_energy 0.3 in
  let ffts := map fft_with_energy [0.1; 0.1; 0.1] in
  reachable d /\
  framesPerPeak d == frames_num 2 /\
  isDetected (fst (update d peak)) = true /\
  quiet (fst (update d peak)) ffts = true /\
  ~ cutoff_schedule 2 (fst (update d peak)) ffts.
Proof.
  cbv zeta. split; [apply reach_new|]. repeat split.
  intros H. destruct (H 2%nat) as [_ Hdecay]; [cbn; lia|].
  specialize (Hdecay (le_n 2)). apply Qeq_bool_iff in Hdecay.
  vm_compute in Hdecay. discriminate.
Qed.

Lemma cutoff_held_one_frame_longer_witness :
  cutoff_schedule 3
    (fst (update (example_detector nat nat) (fft_with_energy 0.3)))
    (map fft_with_energy [0.1; 0.1; 0.1; 0.1; 0.1]).
Proof.
  apply (cutoff_held_one_frame_longer nat nat (example_detector nat nat)
           (fft_with_energy 0.3) 2).
  - apply reach_new.
  - vm_compute. reflexivity.
  - vm_compute. reflexivity.
  - vm_compute. reflexivity.
Defined.

(** The constant stream of C5 fires no peak at all when its energy is not
    above 0: with threshold -1 and [eps] 0.5 the energy -0.5 never exceeds
    the initial cutoff 0. *)
Lemma constant_stream_below_zero_never_fires :
  let d := new_PeakDetect nat nat Omitted Omitted (Given (-1)) Omitted in
  let eps := 0.5 in
  let ffts := map fft_with_energy [-0.5; -0.5] in
  0 < eps /\
  Forall (fun fftObject => sample d fftObject == threshold d + eps) ffts /\
  detections d ffts = [false; false].
Proof.
  cbv zeta. split; [reflexivity|]. split.
  - repeat constructor; apply Qeq_bool_iff; vm_compute; reflexivity.
  - vm_compute. reflexivity.
Qed.

Lemma constant_stream_fires_once_witness :
  detections (new_PeakDetect nat nat Omitted Omitted Omitted Omitted)
             (map fft_with_energy [0.35; 0.35; 0.35])
  = [true; false; false].
Proof.
  apply (constant_stream_fires_once nat nat Omitted Omitted Omitted Omitted 0.1
           (map fft_with_energy [0.35; 0.35; 0.35])).
  - vm_compute. reflexivity.
  - vm_compute. reflexivity.
  - repeat constructor; vm_compute; reflexivity.
Defined.

Lemma peak_sets_cutoff_counter_penergy_witness :
  let d' := fst (update (example_detector nat nat) (fft_with_energy 0.3)) in
  let e := sample (example_detector nat nat) (fft_with_energy 0.3) in
  cutoff d' = e * 1.1 /\ framesSinceLastPeak d' = 0 /\ penergy d' = e /\
  cutoff d' = penergy d' * 1.1.
Proof.
  apply (peak_sets_cutoff_counter_penergy nat nat (example_detector nat nat)
           (fft_with_energy 0.3)).
  vm_compute. reflexivity.
Defined.

(** An explicit threshold of 0 is not stored (C7): the constructor stores
    the default 0.25 in its place. *)
Lemma explicit_zero_threshold_gets_default :
  let d := new_PeakDetect nat nat Omitted Omitted (Given 0) Omitted in
  threshold d == 0.25 /\ ~ threshold d == 0.
Proof.
  cbv zeta. split; [reflexivity|].
  intros H. apply Qeq_bool_iff in H. vm_compute in H. discriminate.
Qed.

Lemma constructor_keeps_nonzero_arguments_witness :
  threshold (new_PeakDetect nat nat (Given 100) Omitted (Given 0.5) GivenNaN)
  = 0.5
  /\ f1 (new_PeakDetect nat nat (Given 100) Omitted (Given 0.5) GivenNaN) = 100
  /\ f2 (new_PeakDetect nat nat (Given 100) Omitted (Given 0.5) GivenNaN)
     = 20000
  /\ framesPerPeak
       (new_PeakDetect nat nat (Given 100) Omitted (Given 0.5) GivenNaN)
     = 5.
Proof.
  pose proof (constructor_keeps_nonzero_arguments nat nat
                (Given 100) Omitted (Given 0.5) GivenNaN) as H.
  cbv zeta in H.
  destruct H as (Hf1 & _ & Hth & _ & _ & Hf2 & _ & Hfpp).
  split; [|split; [|split]].
  - apply (Hth 0.5 eq_refl). intros E. apply Qeq_bool_iff in E.
    vm_compute in E. discriminate.
  - apply (Hf1 100 eq_refl). intros E. apply Qeq_bool_iff in E.
    vm_compute in E. discriminate.
  - apply Hf2. left. reflexivity.
  - apply Hfpp. right. left. reflexivity.
Defined.

Lemma new_detector_has_no_op_observer_witness :
  let call := fun (_ : nat) (_ : Q) (_ : nat) (w : nat) => w in
  let d := new_PeakDetect nat nat Omitted Omitted (Given 0.25) (Given 2) in
  _onPeak d = no_op /\
  Forall (fun r => snd r = []) (frames d example_signal) /\
  snd (drive call d 7%nat example_signal) = 7%nat /\
  snd (drive call (onPeak d 1%nat 2%nat) 7%nat example_signal)
  = snd (drive call d 7%nat example_signal) /\
  properties (fst (drive call (onPeak d 1%nat 2%nat) 7%nat example_signal))
  = properties (fst (drive call d 7%nat example_signal)).
Proof.
  intros call.
  apply (new_detector_has_no_op_observer nat nat nat call
           Omitted Omitted (Given 0.25) (Given 2) 1%nat 2%nat 7%nat
           example_signal).
  intros e v w'. reflexivity.
Defined.

Arguments example_past_hold : clear implicits.
Arguments frames_to_floor {Cb Val} _.
Arguments calls_made {Cb Val} _ _.
Arguments peaks_fired {Cb Val} _ _.
Arguments reachable_after {Cb Val} _ _ _.

(** ** More concrete runs *)

Lemma no_peak_without_rise_witness :
  isDetected
    (fst (update (fst (update (example_detector nat nat)
                         (fft_with_energy 0.5)))
            (fft_with_energy 0.5)))
  = false.
Proof.
  apply (no_peak_without_rise nat nat (example_detector nat nat)
           (fft_with_energy 0.5) (fft_with_energy 0.5)).
  apply Qle_bool_iff. vm_compute. reflexivity.
Defined.

Lemma no_peak_on_nonpositive_sample_witness :
  0 <= cutoff (new_PeakDetect nat nat Omitted Omitted (Given (-1)) Omitted) /\
  isDetected
    (fst (update (new_PeakDetect nat nat Omitted Omitted (Given (-1)) Omitted)
            (fft_with_energy (-0.5))))
  = false.
Proof.
  destruct (no_peak_on_nonpositive_sample nat nat
              (new_PeakDetect nat nat Omitted Omitted (Given (-1)) Omitted)
              (fft_with_energy (-0.5)) (reach_new _ _ _ _)) as [Hpos Hquiet].
  split; [exact Hpos|]. apply Hquiet.
  apply Qle_bool_iff. vm_compute. reflexivity.
Defined.

Lemma counter_saturates_witness :
  (exists n : nat,
      framesSinceLastPeak (example_past_hold nat nat) == frames_num n) /\
  0 <= framesSinceLastPeak (example_past_hold nat nat) /\
  framesSinceLastPeak (example_past_hold nat nat)
  <= Qmax 0 (framesPerPeak (example_past_hold nat nat) + 1).
Proof.
  apply (counter_saturates nat nat (example_past_hold nat nat)).
  apply reachable_after, reach_new.
Defined.

Lemma peak_raises_cutoff_witness :
  let d := example_detector nat nat in
  let d' := fst (update d (fft_with_energy 0.3)) in
  cutoff d < cutoff d' /\
  sample d (fft_with_energy 0.3) < cutoff d' /\
  threshold d < cutoff d'.
Proof.
  apply (peak_raises_cutoff nat nat (example_detector nat nat)
           (fft_with_energy 0.3)).
  - apply reach_new.
  - vm_compute. reflexivity.
Defined.

Lemma floor_is_kept_witness :
  threshold (after (example_past_hold nat nat) example_signal)
  <= cutoff (after (example_past_hold nat nat) example_signal).
Proof.
  apply (floor_is_kept nat nat (example_past_hold nat nat) example_signal).
  - apply reachable_after, reach_new.
  - apply Qle_bool_iff. vm_compute. reflexivity.
Defined.

Lemma quiet_update_lowers_cutoff_witness :
  cutoff (fst (update (example_past_hold nat nat) (fft_with_energy 0.1)))
  <= cutoff (example_past_hold nat nat).
Proof.
  apply (quiet_update_lowers_cutoff nat nat (example_past_hold nat nat)
           (fft_with_energy 0.1)).
  - apply reachable_after, reach_new.
  - apply Qle_bool_iff. vm_compute. reflexivity.
  - vm_compute. reflexivity.
Defined.

Lemma next_peak_in_hold_exceeds_last_witness :
  sample (example_detector nat nat) (fft_with_energy 0.5)
  > sample (example_detector nat nat) (fft_with_energy 0.3) * 1.1.
Proof.
  apply (next_peak_in_hold_exceeds_last nat nat (example_detector nat nat)
           (fft_with_energy 0.3) 2 (silence 2) (fft_with_energy 0.5)).
  - vm_compute. reflexivity.
  - vm_compute. reflexivity.
  - vm_compute. reflexivity.
  - cbn. lia.
  - vm_compute. reflexivity.
Defined.

Lemma state_between_calls_witness :
  let d := fst (update (example_detector nat nat) (fft_with_energy 0.3)) in
  energy d = penergy d /\
  (isDetected d = true ->
   framesSinceLastPeak d = 0 /\ cutoff d = energy d * 1.1).
Proof.
  apply (state_between_calls nat nat
           (fst (update (example_detector nat nat) (fft_with_energy 0.3)))).
  apply reach_update, reach_new.
Defined.

Lemma cutoff_bounded_by_loudest_sample_witness :
  cutoff (after (example_detector nat nat) example_signal)
  <= Qmax (1 * 1.1) (threshold (example_detector nat nat)).
Proof.
  apply (cutoff_bounded_by_loudest_sample nat nat (example_detector nat nat)
           1 example_signal).
  - apply reach_new.
  - apply Qle_bool_iff. vm_compute. reflexivity.
  - repeat constructor; apply Qle_bool_iff; vm_compute; reflexivity.
Defined.

Lemma cutoff_reaches_threshold_witness :
  cutoff (after (example_past_hold nat nat) (silence 26))
  == threshold (example_past_hold nat nat).
Proof.
  apply (cutoff_reaches_threshold nat nat (example_past_hold nat nat)
           (silence 26)).
  - apply reachable_after, reach_new.
  - apply Qle_bool_false. vm_compute. reflexivity.
  - apply Qle_bool_iff. vm_compute. reflexivity.
  - apply Qle_bool_false. vm_compute. reflexivity.
  - vm_compute. reflexivity.
  - apply Nat.leb_le. vm_compute. reflexivity.
Defined.

Lemma silence_after_peak_resets_cutoff_witness :
  cutoff (after (fst (update (example_detector nat nat)
                        (fft_with_energy 0.3)))
            (silence 29))
  == threshold (example_detector nat nat).
Proof.
  apply (silence_after_peak_resets_cutoff nat nat (example_detector nat nat)
           (fft_with_energy 0.3) 2 (silence 29)).
  - apply reach_new.
  - apply Qle_bool_false. vm_compute. reflexivity.
  - vm_compute. reflexivity.
  - vm_compute. reflexivity.
  - vm_compute. reflexivity.
  - apply Nat.leb_le. vm_compute. reflexivity.
Defined.
